(** * Lit_Project.py: a shallow embedding and its verified properties

    The script loads the text of a PDF, reads a quote from the console,
    checks whether the quote occurs in the text, asks a remote service for
    an explanation, prints a sentiment report and a fixed citation.

    The embedding follows the script function by function.  Console output,
    console input and the remote call are effects: they are modelled by a
    small monad that emits a list of events and advances a cursor in the
    console input.  The PDF reader, the remote service and the sentiment
    analyser are external collaborators: their behaviour is a field of the
    [environment] record. *)

From Stdlib Require Import ZArith QArith Qabs Bool List Lia.
From Stdlib Require Import Strings.Ascii Strings.String Numbers.DecimalString.
Import ListNotations.

Local Close Scope Q_scope.
Local Open Scope nat_scope.
Local Open Scope string_scope.

(** ** Python strings

    A [str] is modelled by [string]; the characters are those of the ASCII
    range, which is where the three built-ins used by the script
    ([str.lower], [str.strip], [in]) are specified below. *)

Module PyStr.

(** [c.isspace()] on the ASCII range: tab, line feed, vertical tab, form
    feed, carriage return, the four separators 0x1c..0x1f, and space. *)
Definition isspace (c : ascii) : bool :=
  let n := nat_of_ascii c in
  (((9 <=? n) && (n <=? 13)) || ((28 <=? n) && (n <=? 31)) || (n =? 32))%nat.

(** [c.lower()] on the ASCII range: 'A'..'Z' move down by 32. *)
Definition lower_char (c : ascii) : ascii :=
  let n := nat_of_ascii c in
  if ((65 <=? n) && (n <=? 90))%nat then ascii_of_nat (n + 32) else c.

(** [s.lower()] *)
Fixpoint lower (s : string) : string :=
  match s with
  | EmptyString => EmptyString
  | String c s' => String (lower_char c) (lower s')
  end.

(** [s.lstrip()] *)
Fixpoint lstrip (s : string) : string :=
  match s with
  | EmptyString => EmptyString
  | String c s' => if isspace c then lstrip s' else s
  end.

(** [s.rstrip()] *)
Fixpoint rstrip (s : string) : string :=
  match s with
  | EmptyString => EmptyString
  | String c s' =>
      match rstrip s' with
      | EmptyString => if isspace c then EmptyString else String c EmptyString
      | r => String c r
      end
  end.

(** [s.strip()] *)
Definition strip (s : string) : string := rstrip (lstrip s).

(** [s.startswith(p)] *)
Fixpoint startswith (p s : string) : bool :=
  match p, s with
  | EmptyString, _ => true
  | String _ _, EmptyString => false
  | String a p', String b s' => Ascii.eqb a b && startswith p' s'
  end.

(** [sub in s]: substring containment. *)
Fixpoint contains (sub s : string) : bool :=
  startswith sub s
  || match s with
     | EmptyString => false
     | String _ s' => contains sub s'
     end.

(** Truth value of a string in a condition ([if s:], [if not s:]). *)
Definition truthy (s : string) : bool :=
  match s with EmptyString => false | String _ _ => true end.

(** [s.isspace()] extended to the empty string: every character is
    whitespace. *)
Fixpoint all_space (s : string) : bool :=
  match s with
  | EmptyString => true
  | String c s' => isspace c && all_space s'
  end.

(** [str(n)] for an integer. *)
Definition of_Z (n : Z) : string := NilEmpty.string_of_int (Z.to_int n).

(** The double-quote character and the line feed, for the literals that
    embed them. *)
Definition dquote : string := String "034"%char EmptyString.
Definition nl : string := String "010"%char EmptyString.



(** The specification-side reading of containment. *)
Definition substring_of (sub s : string) : Prop :=
  exists pre post, s = pre ++ sub ++ post.

End PyStr.

Import PyStr.

(** ** Floats

    The two sentiment scores are floats.  A finite float is a rational
    number and the script only compares and prints them, both of which are
    exact on the value, so a float is modelled by its exact value in [Q];
    a float literal is the value of the double it denotes. *)

Module PyFloat.

(** The literal [0.3]: the double nearest to 3/10, 5404319552844595 / 2^54. *)
Definition float_0_3 : Q := 5404319552844595 # 18014398509481984.

(** The literal [0.7]: the double nearest to 7/10, 3152519739159347 / 2^52. *)
Definition float_0_7 : Q := 3152519739159347 # 4503599627370496.

(** [x < y] *)
Definition ltb (x y : Q) : bool := negb (Qle_bool y x).

(** Nearest integer, ties to the even one. *)
Definition round_half_even (q : Q) : Z :=
  let n := Qnum q in
  let d := Z.pos (Qden q) in
  let f := (n / d)%Z in
  match (2 * (n mod d) ?= d)%Z with
  | Lt => f
  | Gt => (f + 1)%Z
  | Eq => if Z.even f then f else (f + 1)%Z
  end.

Definition two_digits (n : Z) : string :=
  (if (n <? 10)%Z then "0" else EmptyString) ++ of_Z n.

(** [f"{x:.2f}"] *)
Definition format_2f (x : Q) : string :=
  let c := round_half_even (Qabs x * inject_Z 100)%Q in
  (if (Qnum x <? 0)%Z then "-" else EmptyString)
  ++ of_Z (c / 100) ++ "." ++ two_digits (c mod 100).

End PyFloat.

Import PyFloat.

(** ** Exceptions

    [exn] lists the instances of [Exception] that the collaborators and the
    built-ins used by the script can raise.  Interrupts delivered from
    outside the process ([KeyboardInterrupt]) are not outcomes of a call and
    are not modelled. *)

Inductive exn : Type :=
| APIStatusError (message : string) (status_code : Z) (response : string)
| APITimeoutError
| EOFError
| IndexError
| AttributeError
| OtherException (message : string).

(** [str(e)] *)
Definition exn_str (e : exn) : string :=
  match e with
  | APIStatusError message _ _ => message
  | APITimeoutError => "Request timed out."
  | EOFError => "EOF when reading a line"
  | IndexError => "list index out of range"
  | AttributeError => "'NoneType' object has no attribute 'strip'"
  | OtherException message => message
  end.

(** The result of a call into a collaborator. *)
Inductive attempt (A : Type) : Type :=
| Returns (a : A)
| Raises (e : exn).
Arguments Returns {A} a.
Arguments Raises {A} e.

(** ** The remote service *)

Record message : Type := { role : string; content : string }.

Record request : Type := {
  model : string;
  messages : list message;
  temperature : Q;
  max_tokens : Z
}.

(** A response carries its choices; [None] is a choice whose message has
    no content. *)
Record response : Type := { choices : list (option string) }.

(** ** The environment of a run *)

Record environment : Type := {
  (** [os.getenv("OPENAI_API_KEY")] once [load_dotenv()] has run *)
  getenv_OPENAI_API_KEY : option string;
  (** [os.path.exists] *)
  path_exists : string -> bool;
  (** [PdfReader(path).pages], each page with what [extract_text()] does *)
  pdf_reader : string -> attempt (list (attempt string));
  (** the lines typed on the console; [None] is the end of the input *)
  console : nat -> option string;
  (** [client.chat.completions.create] *)
  chat_completions_create : request -> attempt response;
  (** [TextBlob(text).sentiment]: polarity and subjectivity *)
  sentiment : string -> Q * Q
}.

(** ** Effects

    A computation reads console lines from a cursor, emits events and ends
    in one of four ways.  [Pending] is the result of a call whose budget of
    nested calls is used up before it has returned. *)

Inductive event : Type :=
| Print (line : string)
| Prompt (text : string)
| Create (req : request).

Inductive outcome (A : Type) : Type :=
| Ret (a : A)
| Raise (e : exn)
| Exit (code : Z)
| Pending.
Arguments Ret {A} a.
Arguments Raise {A} e.
Arguments Exit {A} code.
Arguments Pending {A}.

Definition M (A : Type) : Type := nat -> outcome A * list event * nat.

Definition ret {A} (a : A) : M A := fun i => (Ret a, [], i).

Definition bind {A B} (m : M A) (f : A -> M B) : M B :=
  fun i =>
    match m i with
    | (Ret a, t, j) => let '(r, t', k) := f a j in (r, (t ++ t')%list, k)
    | (Raise e, t, j) => (Raise e, t, j)
    | (Exit c, t, j) => (Exit c, t, j)
    | (Pending, t, j) => (Pending, t, j)
    end.

Declare Scope py_scope.
Delimit Scope py_scope with py.
Notation "x <- m ;; k" := (bind m (fun x => k))
  (at level 61, m at next level, right associativity) : py_scope.
Notation "m ;; k" := (bind m (fun _ => k))
  (at level 61, right associativity) : py_scope.
Local Open Scope py_scope.

Definition raise {A} (e : exn) : M A := fun i => (Raise e, [], i).
Definition exit {A} (code : Z) : M A := fun i => (Exit code, [], i).
Definition pending {A} : M A := fun i => (Pending, [], i).
Definition print (line : string) : M unit := fun i => (Ret tt, [Print line], i).

Definition lift {A} (r : attempt A) : M A :=
  match r with
  | Returns a => ret a
  | Raises e => raise e
  end.

(** An [except] clause: [None] when the clause does not match the
    exception. *)
Definition handler (A : Type) : Type := exn -> option (M A).

Fixpoint dispatch {A} (handlers : list (handler A)) (e : exn) : M A :=
  match handlers with
  | [] => raise e
  | h :: rest =>
      match h e with
      | Some m => m
      | None => dispatch rest e
      end
  end.

(** [try: body  except ...: ...]: the clauses are tried in order, and an
    exception that none matches propagates. *)
Definition try_except {A} (body : M A) (handlers : list (handler A)) : M A :=
  fun i =>
    match body i with
    | (Raise e, t, j) =>
        let '(r, t', k) := dispatch handlers e j in (r, (t ++ t')%list, k)
    | other => other
    end.

(** [seq[0]] *)
Definition first {A} (l : list A) : M A :=
  match l with
  | [] => raise IndexError
  | x :: _ => ret x
  end.

(** [content.strip()], where [content] may be [None]. *)
Definition strip_content (content : option string) : M string :=
  match content with
  | None => raise AttributeError
  | Some s => ret (strip s)
  end.

(** ** The script *)

Definition MLA_CITATION : string :=
  "Douglass, Frederick. *Narrative of the Life of Frederick Douglass, an American Slave.* "
  ++ "Anti-Slavery Office, 1845.".

(** The three strings that [explain_quote_with_gpt] returns in place of an
    explanation. *)
Definition API_ERROR_FALLBACK : string :=
  "Could not generate explanation due to an API error.".
Definition TIMEOUT_FALLBACK : string :=
  "Could not generate explanation due to a timeout.".
Definition UNEXPECTED_FALLBACK : string :=
  "Could not generate explanation due to an unexpected error.".

(** The messages of the match check. *)
Definition FOUND : list event :=
  [Print (nl ++ "✅ Quote found in the loaded PDF text (case-insensitive match).")].
Definition NOT_FOUND : list event :=
  [Print (nl ++ "⚠️ Warning: The exact quote was not found in the PDF.");
   Print "   This might be due to typos, variations, or the quote not being in the document."].

(** The lines of the 401 diagnostic. *)
Definition AUTH_DIAGNOSTIC : list event :=
  [Print "   This is likely an Authentication Error: Your API key is invalid or expired.";
   Print "   Please double-check your OPENAI_API_KEY in the .env file."].

(** The interpretation lines of the sentiment report. *)
Definition POSITIVE : string :=
  "  Interpretation: The quote generally conveys a positive tone.".
Definition NEGATIVE : string :=
  "  Interpretation: The quote generally conveys a negative tone.".
Definition NEUTRAL : string :=
  "  Interpretation: The quote generally conveys a neutral or mixed tone.".

Definition NO_QUOTE : string := "⚠️ No quote entered. Please try again.".

Definition emit (events : list event) : M unit := fun i => (Ret tt, events, i).

Section Script.

Variable env : environment.

(** [input(prompt)] *)
Definition input (prompt : string) : M string :=
  fun i =>
    match console env i with
    | Some line => (Ret line, [Prompt prompt], S i)
    | None => (Raise EOFError, [Prompt prompt], i)
    end.

(** The remote call, recorded in the trace. *)
Definition create (req : request) : M response :=
  fun i =>
    match chat_completions_create env req with
    | Returns r => (Ret r, [Create req], i)
    | Raises e => (Raise e, [Create req], i)
    end.

(** The [for] loop of [load_pdf_text], with [text] as accumulator. *)
Fixpoint extract_pages (pages : list (attempt string)) (text : string)
  : attempt string :=
  match pages with
  | [] => Returns text
  | Raises e :: _ => Raises e
  | Returns page_text :: rest =>
      extract_pages rest
        (if truthy page_text then text ++ (page_text ++ nl) else text)
  end.

Definition load_pdf_text (file_path : string) : M string :=
  if negb (path_exists env file_path) then
    print ("  Error: PDF file not found at: " ++ file_path);;
    print "   Please ensure the path is correct and the file exists.";;
    exit 1
  else
    print ("Attempting to load text from: " ++ file_path);;
    try_except
      (pages <- lift (pdf_reader env file_path);;
       text <- lift (extract_pages pages EmptyString);;
       print "✅ PDF text loaded successfully.";;
       ret text)
      [fun e => Some (
         print (nl ++ " Error reading PDF file: " ++ exn_str e);;
         print "   Please ensure the PDF is not corrupted and is readable.";;
         exit 1)].

(** [depth] bounds the nesting of the self-calls: with [depth = d] the
    function may call itself [d] times in a row, and a run that needs more
    is [Pending].  The function returns when it does so for some [depth];
    the limit that the interpreter itself puts on the call depth is a
    setting of the run time and is not modelled. *)
Fixpoint get_user_quote (depth : nat) : M string :=
  print (nl ++ "--- Quote Input ---");;
  print "📜 Please enter a quote from 'Narrative of the Life of Frederick Douglass':";;
  line <- input ">>> ";;
  let quote := strip line in
  if negb (truthy quote) then
    print NO_QUOTE;;
    match depth with
    | O => pending
    | S d => get_user_quote d
    end
  else ret quote.

Definition prompt_for (quote : string) : request :=
  {| model := "gpt-3.5-turbo";
     messages :=
       [ {| role := "system";
            content := "You are a helpful literature assistant, specializing in 19th-century American literature. Explain quotes clearly and concisely." |};
         {| role := "user";
            content := "Explain this quote from Frederick Douglass's 'Narrative' in simple terms, focusing on its meaning and significance: "
                       ++ dquote ++ quote ++ dquote |} ];
     temperature := float_0_7;
     max_tokens := 300 |}.

Definition explain_quote_with_gpt (quote : string) : M string :=
  print (nl ++ "--- OpenAI Explanation ---");;
  print "🔍 Generating explanation via OpenAI (this might take a moment)...";;
  try_except
    (response <- create (prompt_for quote);;
     choice <- first (choices response);;
     explanation <- strip_content choice;;
     print "✅ Explanation received from OpenAI.";;
     ret explanation)
    [ (fun e =>
         match e with
         | APIStatusError _ status_code response =>
             Some (
               print (nl ++ " OpenAI API Error (Status Code: " ++ of_Z status_code
                      ++ "): " ++ response);;
               (if (status_code =? 401)%Z then emit AUTH_DIAGNOSTIC else ret tt);;
               ret API_ERROR_FALLBACK)
         | _ => None
         end);
      (fun e =>
         match e with
         | APITimeoutError =>
             Some (
               print (nl ++ " OpenAI API Timeout Error: The request took too long to respond.");;
               ret TIMEOUT_FALLBACK)
         | _ => None
         end);
      (fun e =>
         Some (
           print (nl ++ " An unexpected error occurred during OpenAI call: " ++ exn_str e);;
           ret UNEXPECTED_FALLBACK)) ].

(** The [if]/[elif]/[else] on the polarity. *)
Definition interpretation (polarity : Q) : string :=
  if ltb float_0_3 polarity then POSITIVE
  else if ltb polarity (- float_0_3) then NEGATIVE
  else NEUTRAL.

Definition analyze_quote_nlp (quote : string) : M unit :=
  print (nl ++ "--- NLP Diagnostics ---");;
  print " Running NLP diagnostics with TextBlob...";;
  let '(polarity, subjectivity) := sentiment env quote in
  print (nl ++ "  Sentiment Analysis Results:");;
  print ("- Polarity (Tone): " ++ format_2f polarity
         ++ " (closer to -1 is negative, +1 is positive, 0 is neutral)");;
  print ("- Subjectivity: " ++ format_2f subjectivity
         ++ " (closer to 0 is factual, closer to 1 is opinionated)");;
  print (interpretation polarity).

(** The match check of [main]: the [if] on
    [user_quote.lower() in pdf_text.lower()] and its two branches. *)
Definition quote_in_pdf (user_quote pdf_text : string) : bool :=
  contains (lower user_quote) (lower pdf_text).

Definition check_match (user_quote pdf_text : string) : M unit :=
  if quote_in_pdf user_quote pdf_text then emit FOUND else emit NOT_FOUND.

Definition FILE_PATH : string :=
  "/run/media/darklord/GVH USB/Python Code/Douglass_Narrative.pdf".

Definition main (depth : nat) : M unit :=
  let file_path := FILE_PATH in
  pdf_text <- load_pdf_text file_path;;
  user_quote <- get_user_quote depth;;
  check_match user_quote pdf_text;;
  explanation <- explain_quote_with_gpt user_quote;;
  print (nl ++ "--- OpenAI Explanation Result ---");;
  print explanation;;
  analyze_quote_nlp user_quote;;
  print (nl ++ "--- MLA Citation ---");;
  print "📝 For 'Narrative of the Life of Frederick Douglass, an American Slave':";;
  print MLA_CITATION;;
  print (nl ++ "--- Program Finished ---").

(** What [if not api_key:] tests: the variable is unset or empty. *)
Definition api_key_missing : bool :=
  match getenv_OPENAI_API_KEY env with
  | None => true
  | Some key => negb (truthy key)
  end.

(** The module body: the credential check, then [main()]. *)
Definition script (depth : nat) : M unit :=
  if api_key_missing then
    print "   Error: API key missing. Please make sure your .env file is correctly set up.";;
    print "   It should be in the same directory as this script and contain:";;
    print "   OPENAI_API_KEY='your_actual_openai_api_key_here'";;
    exit 1
  else main depth.

End Script.


(** A run of the script from the start of the console input. *)
Definition run (env : environment) (depth : nat) : outcome unit * list event * nat :=
  script env depth 0.

(** ** Vocabulary of the statements *)

(** What one activation of [get_user_quote] writes before it reads. *)
Definition QUOTE_HEADER : string := nl ++ "--- Quote Input ---".

Definition ASK : list event :=
  [Print QUOTE_HEADER;
   Print "📜 Please enter a quote from 'Narrative of the Life of Frederick Douglass':";
   Prompt ">>> "].

(** Line [k] of the console is a submission that is empty once trimmed. *)
Definition blank_line (env : environment) (k : nat) : bool :=
  match console env k with
  | Some line => negb (truthy (strip line))
  | None => false
  end.

(** From position [i] the console holds [n] blank submissions and then
    [line], which is not blank. *)
Definition first_nonblank (env : environment) (i n : nat) (line : string) : Prop :=
  (forall k, k < n -> blank_line env (i + k) = true)
  /\ console env (i + n) = Some line
  /\ truthy (strip line) = true.

Definition is_print (s : string) (e : event) : bool :=
  match e with
  | Print line => String.eqb line s
  | _ => false
  end.

(** How many times the line [s] is printed in a trace. *)
Definition count_print (s : string) (t : list event) : nat :=
  List.length (filter (is_print s) t).

(** What [explain_quote_with_gpt] writes before the remote call, and the
    diagnostics of its three [except] clauses. *)
Definition EXPLAIN_HEADER : list event :=
  [Print (nl ++ "--- OpenAI Explanation ---");
   Print "🔍 Generating explanation via OpenAI (this might take a moment)..."].

Definition RECEIVED : event := Print "✅ Explanation received from OpenAI.".

Definition status_line (status_code : Z) (response : string) : event :=
  Print (nl ++ " OpenAI API Error (Status Code: " ++ of_Z status_code ++ "): " ++ response).

Definition TIMEOUT_LINE : event :=
  Print (nl ++ " OpenAI API Timeout Error: The request took too long to respond.").

Definition unexpected_line (e : exn) : event :=
  Print (nl ++ " An unexpected error occurred during OpenAI call: " ++ exn_str e).

(** The failure classes in the words of the specification: an
    authentication or authorization failure is told by its status (401
    unauthorized, 403 forbidden), a timeout is a timeout, anything else is
    unclassified; each class has its fallback string. *)
Inductive failure_class : Type :=
| AuthFailure
| TimeoutFailure
| UnclassifiedFailure.

Definition spec_failure_class (e : exn) : failure_class :=
  match e with
  | APIStatusError _ status_code _ =>
      if ((status_code =? 401) || (status_code =? 403))%Z
      then AuthFailure else UnclassifiedFailure
  | APITimeoutError => TimeoutFailure
  | _ => UnclassifiedFailure
  end.

Definition spec_fallback (c : failure_class) : string :=
  match c with
  | AuthFailure => API_ERROR_FALLBACK
  | TimeoutFailure => TIMEOUT_FALLBACK
  | UnclassifiedFailure => UNEXPECTED_FALLBACK
  end.

(** The lines of the sentiment report that precede the interpretation. *)
Definition sentiment_scores (polarity subjectivity : Q) : list event :=
  [Print (nl ++ "--- NLP Diagnostics ---");
   Print " Running NLP diagnostics with TextBlob...";
   Print (nl ++ "  Sentiment Analysis Results:");
   Print ("- Polarity (Tone): " ++ format_2f polarity
          ++ " (closer to -1 is negative, +1 is positive, 0 is neutral)");
   Print ("- Subjectivity: " ++ format_2f subjectivity
          ++ " (closer to 0 is factual, closer to 1 is opinionated)")].

(** What reading the document gives: its text, or the exception raised by
    the reader or by the extraction of one of its pages. *)
Definition read_document (env : environment) (file_path : string) : attempt string :=
  match pdf_reader env file_path with
  | Raises e => Raises e
  | Returns pages => extract_pages pages EmptyString
  end.


Definition FILE_MISSING (file_path : string) : list event :=
  [Print ("  Error: PDF file not found at: " ++ file_path);
   Print "   Please ensure the path is correct and the file exists."].

Definition FILE_UNREADABLE (file_path : string) (e : exn) : list event :=
  [Print ("Attempting to load text from: " ++ file_path);
   Print (nl ++ " Error reading PDF file: " ++ exn_str e);
   Print "   Please ensure the PDF is not corrupted and is readable."].

Definition FILE_LOADED (file_path : string) : list event :=
  [Print ("Attempting to load text from: " ++ file_path);
   Print "✅ PDF text loaded successfully."].

(** The last lines of a complete run. *)
Definition CITATION : list event :=
  [Print (nl ++ "--- MLA Citation ---");
   Print "📝 For 'Narrative of the Life of Frederick Douglass, an American Slave':";
   Print MLA_CITATION;
   Print (nl ++ "--- Program Finished ---")].

(** The steps of [main] that follow the match check. *)
Definition main_tail (env : environment) (user_quote : string) : M unit :=
  explanation <- explain_quote_with_gpt env user_quote;;
  print (nl ++ "--- OpenAI Explanation Result ---");;
  print explanation;;
  analyze_quote_nlp env user_quote;;
  print (nl ++ "--- MLA Citation ---");;
  print "📝 For 'Narrative of the Life of Frederick Douglass, an American Slave':";;
  print MLA_CITATION;;
  print (nl ++ "--- Program Finished ---").

(** The log of the match check. *)
Definition match_log (found : bool) : list event :=
  if found then FOUND else NOT_FOUND.

(** Two runs with the same credential, the same console input, the same
    remote service and the same sentiment analyser; the documents are
    free. *)
Definition same_but_document (e1 e2 : environment) : Prop :=
  getenv_OPENAI_API_KEY e1 = getenv_OPENAI_API_KEY e2
  /\ (forall k, console e1 k = console e2 k)
  /\ (forall req, chat_completions_create e1 req = chat_completions_create e2 req)
  /\ (forall text, sentiment e1 text = sentiment e2 text).


(** The requests sent to the service in a trace. *)
Definition is_create (e : event) : bool :=
  match e with
  | Create _ => true
  | _ => false
  end.

Definition count_create (t : list event) : nat :=
  List.length (filter is_create t).

(** What [get_user_quote] writes when [n] blank submissions precede the
    line that ends it: [n] times the header, the prompt and the warning,
    then the header and the prompt once more. *)
Fixpoint asking (n : nat) : list event :=
  match n with
  | O => ASK
  | S k => (ASK ++ Print NO_QUOTE :: asking k)%list
  end.


(** The line that [main] prints above the explanation. *)
Definition RESULT_HEADER : string := nl ++ "--- OpenAI Explanation Result ---".

(** The text of a document in the words of the specification: the pages
    that yield text, in page order, each followed by one line feed. *)
Definition pages_text (texts : list string) : string :=
  fold_right append EmptyString (map (fun t => t ++ nl) (filter truthy texts)).

(** ** Sample runs *)

(** A run in which everything works: the credential is set, the document
    has three pages of which the second yields no text, the user submits
    two blank lines and then a quote, the service answers. *)
Definition sample_env : environment :=
  {| getenv_OPENAI_API_KEY := Some "sk-test";
     path_exists := fun _ => true;
     pdf_reader := fun _ =>
       Returns [Returns "Liberty is sweet."; Returns EmptyString; Returns "The end."];
     console := fun k =>
       match k with
       | 0 => Some "   "
       | 1 => Some EmptyString
       | _ => Some "  LIBERTY  "
       end;
     chat_completions_create := fun _ =>
       Returns {| choices := [Some " It means freedom. "] |};
     sentiment := fun _ => (1 # 2, 1 # 8)%Q |}.


(** A run in which the service answers every request with an internal
    server error. *)
Definition SERVER_ERROR : exn :=
  APIStatusError "Error code: 500" 500 "<Response [500 Internal Server Error]>".

Definition server_error_env : environment :=
  {| getenv_OPENAI_API_KEY := getenv_OPENAI_API_KEY sample_env;
     path_exists := path_exists sample_env;
     pdf_reader := pdf_reader sample_env;
     console := console sample_env;
     chat_completions_create := fun _ => Raises SERVER_ERROR;
     sentiment := sentiment sample_env |}.

(** Runs in which the service rejects the credential, and in which it
    times out. *)
Definition UNAUTHORIZED : exn :=
  APIStatusError "Error code: 401" 401 "<Response [401 Unauthorized]>".

Definition unauthorized_env : environment :=
  {| getenv_OPENAI_API_KEY := getenv_OPENAI_API_KEY sample_env;
     path_exists := path_exists sample_env;
     pdf_reader := pdf_reader sample_env;
     console := console sample_env;
     chat_completions_create := fun _ => Raises UNAUTHORIZED;
     sentiment := sentiment sample_env |}.

Definition timeout_env : environment :=
  {| getenv_OPENAI_API_KEY := getenv_OPENAI_API_KEY sample_env;
     path_exists := path_exists sample_env;
     pdf_reader := pdf_reader sample_env;
     console := console sample_env;
     chat_completions_create := fun _ => Raises APITimeoutError;
     sentiment := sentiment sample_env |}.

(** The sample run on another document, in which the quote does not
    occur. *)
Definition other_document_env : environment :=
  {| getenv_OPENAI_API_KEY := getenv_OPENAI_API_KEY sample_env;
     path_exists := path_exists sample_env;
     pdf_reader := fun _ => Returns [Returns "My bondage and my freedom."];
     console := console sample_env;
     chat_completions_create := chat_completions_create sample_env;
     sentiment := sentiment sample_env |}.



Definition CORRUPT : exn := OtherException "EOF marker not found".

Definition corrupt_file_env : environment :=
  {| getenv_OPENAI_API_KEY := getenv_OPENAI_API_KEY sample_env;
     path_exists := path_exists sample_env;
     pdf_reader := fun _ => Returns [Returns "Liberty is sweet."; Raises CORRUPT];
     console := console sample_env;
     chat_completions_create := chat_completions_create sample_env;
     sentiment := sentiment sample_env |}.


(** The sample run on a document whose two pages yield no text. *)
Definition empty_document_env : environment :=
  {| getenv_OPENAI_API_KEY := getenv_OPENAI_API_KEY sample_env;
     path_exists := path_exists sample_env;
     pdf_reader := fun _ => Returns [Returns EmptyString; Returns EmptyString];
     console := console sample_env;
     chat_completions_create := chat_completions_create sample_env;
     sentiment := sentiment sample_env |}.

(** The sample run with a service whose first choice is blank. *)
Definition blank_answer_env : environment :=
  {| getenv_OPENAI_API_KEY := getenv_OPENAI_API_KEY sample_env;
     path_exists := path_exists sample_env;
     pdf_reader := pdf_reader sample_env;
     console := console sample_env;
     chat_completions_create := fun _ =>
       Returns {| choices := [Some "  "; Some "unused"] |};
     sentiment := sentiment sample_env |}.

(** * Properties *)

(** ** Strings *)

Section StringFacts.

Lemma append_nil_r (s : string) : s ++ EmptyString = s.
Proof. induction s as [|c s IH]; simpl; [reflexivity | now rewrite IH]. Qed.

Lemma append_assoc (a b c : string) : (a ++ b) ++ c = a ++ (b ++ c).
Proof. induction a as [|x a IH]; simpl; [reflexivity | now rewrite IH]. Qed.

Lemma startswith_spec (p s : string) :
  startswith p s = true <-> exists post, s = p ++ post.
Proof.
  revert s; induction p as [|a p IH]; intros s; simpl.
  - split; [intros _; now exists s | reflexivity].
  - destruct s as [|b s].
    + split; [discriminate | intros [post H]; discriminate].
    + rewrite andb_true_iff, Ascii.eqb_eq, IH. split.
      * intros [-> [post ->]]. now exists post.
      * intros [post H]. injection H as -> ->. split; [reflexivity | now exists post].
Qed.

Lemma contains_spec (sub s : string) :
  contains sub s = true <-> substring_of sub s.
Proof.
  unfold substring_of. induction s as [|c s IH].
  - simpl. rewrite orb_false_r, startswith_spec. split.
    + intros [post H]. now exists EmptyString, post.
    + intros [[|x pre] [post H]]; [now exists post | discriminate].
  - cbn [contains]. rewrite orb_true_iff, startswith_spec, IH. split.
    + intros [[post H] | [pre [post H]]].
      * now exists EmptyString, post.
      * exists (String c pre), post. simpl. now rewrite H.
    + intros [[|x pre] [post H]].
      * left. now exists post.
      * right. simpl in H. injection H as _ H. now exists pre, post.
Qed.

End StringFacts.

(** ** The match check *)


(** ** Trimming *)

Section StripFacts.

Lemma lstrip_split (s : string) :
  exists a, s = a ++ lstrip s /\ all_space a = true.
Proof.
  induction s as [|c s [a [Hs Ha]]]; simpl.
  - now exists EmptyString.
  - destruct (isspace c) eqn:Hc.
    + exists (String c a). simpl. rewrite Hc, Ha. now rewrite <- Hs.
    + now exists EmptyString.
Qed.



Lemma rstrip_split (s : string) :
  exists b, s = rstrip s ++ b /\ all_space b = true.
Proof.
  induction s as [|c s [b [Hs Hb]]]; simpl.
  - now exists EmptyString.
  - destruct (rstrip s) as [|x r] eqn:Hr.
    + simpl in Hs. subst b. destruct (isspace c) eqn:Hc.
      * exists (String c s). simpl. now rewrite Hc, Hb.
      * exists s. now split.
    + exists b. split; [simpl; f_equal; exact Hs | exact Hb].
Qed.




Lemma strip_split (s : string) :
  exists a b, s = a ++ strip s ++ b /\ all_space a = true /\ all_space b = true.
Proof.
  destruct (lstrip_split s) as [a [Hs Ha]].
  destruct (rstrip_split (lstrip s)) as [b [Hl Hb]].
  exists a, b. unfold strip. now rewrite <- Hl.
Qed.







End StripFacts.

(** ** The quote collector *)

Lemma get_user_quote_eq env depth i :
  get_user_quote env depth i =
  match console env i with
  | None => (Raise EOFError, ASK, i)
  | Some line =>
      if truthy (strip line) then (Ret (strip line), ASK, S i)
      else
        match depth with
        | O => (Pending, (ASK ++ [Print NO_QUOTE])%list, S i)
        | S d =>
            let '(r, t, k) := get_user_quote env d (S i) in
            (r, (ASK ++ Print NO_QUOTE :: t)%list, k)
        end
  end.
Proof.
  destruct depth as [|d]; cbn [get_user_quote]; unfold bind, print, input;
    destruct (console env i) as [line|]; try reflexivity;
    destruct (truthy (strip line)); try reflexivity.
  cbn [negb]. unfold bind. destruct (get_user_quote env d (S i)) as [[r t] k].
  reflexivity.
Qed.


Lemma first_nonblank_unshift env i n line :
  first_nonblank env i (S n) line ->
  blank_line env i = true /\ first_nonblank env (S i) n line.
Proof.
  intros (Hk & Hc & Ht). split.
  - specialize (Hk 0). rewrite Nat.add_0_r in Hk. apply Hk. lia.
  - repeat split.
    + intros k Hlt. specialize (Hk (S k)). rewrite Nat.add_succ_r in Hk.
      apply Hk. lia.
    + now rewrite Nat.add_succ_r in Hc.
    + exact Ht.
Qed.


Lemma count_print_app s (a b : list event) :
  count_print s (a ++ b) = count_print s a + count_print s b.
Proof. unfold count_print. now rewrite filter_app, length_app. Qed.

Lemma blank_line_inv env i :
  blank_line env i = true ->
  exists line, console env i = Some line /\ truthy (strip line) = false.
Proof.
  unfold blank_line. destruct (console env i) as [line|]; [| discriminate].
  intros H. exists line. split; [reflexivity |].
  now destruct (truthy (strip line)).
Qed.

Lemma get_user_quote_enough env n :
  forall i line depth,
    first_nonblank env i n line -> n <= depth ->
    exists t,
      get_user_quote env depth i = (Ret (strip line), t, i + n + 1)
      /\ count_print NO_QUOTE t = n
      /\ count_print QUOTE_HEADER t = S n.
Proof.
  induction n as [|n IH]; intros i line depth Hf Hle.
  - destruct Hf as (_ & Hc & Ht). rewrite Nat.add_0_r in Hc.
    exists ASK. rewrite get_user_quote_eq, Hc, Ht.
    repeat split. f_equal. lia.
  - apply first_nonblank_unshift in Hf. destruct Hf as [Hb Hf].
    destruct (blank_line_inv _ _ Hb) as (l & Hc & Ht).
    destruct depth as [|d]; [lia |].
    destruct (IH (S i) line d Hf ltac:(lia)) as (t & Hrun & Hw & Hh).
    exists (ASK ++ Print NO_QUOTE :: t)%list.
    rewrite get_user_quote_eq, Hc, Ht, Hrun. split; [f_equal; lia |].
    rewrite !count_print_app.
    change (Print NO_QUOTE :: t) with ([Print NO_QUOTE] ++ t)%list.
    rewrite !count_print_app, Hw, Hh. split; reflexivity.
Qed.






Lemma sample_env_first_nonblank : first_nonblank sample_env 0 2 "  LIBERTY  ".
Proof.
  repeat split. intros [|[|k]] Hk; [reflexivity | reflexivity | lia].
Qed.


(** ** The document loader *)

Lemma extract_pages_texts (texts : list string) :
  forall text,
    extract_pages (map Returns texts) text = Returns (text ++ pages_text texts).
Proof.
  induction texts as [|page_text rest IH]; intros text.
  - unfold pages_text. simpl. now rewrite append_nil_r.
  - cbn [map extract_pages]. rewrite IH. unfold pages_text. cbn [filter].
    destruct (truthy page_text); [| reflexivity].
    cbn [map fold_right]. now rewrite !append_assoc.
Qed.

(** C5.  For a document that exists and whose pages all extract to a text,
    [load_pdf_text] returns the pages that yield text, in page order, each
    followed by one line feed, after announcing the load and its success; a
    page without text adds nothing, so that for pages [p1], nothing, [p3]
    the result is [p1], a line feed, [p3], a line feed. *)
Theorem C5_load_pdf_text_joins_nonempty_pages env file_path texts i :
  path_exists env file_path = true ->
  pdf_reader env file_path = Returns (map Returns texts) ->
  load_pdf_text env file_path i
  = (Ret (pages_text texts),
     [Print ("Attempting to load text from: " ++ file_path);
      Print "✅ PDF text loaded successfully."],
     i)
  /\ (forall p1 p3,
         texts = [p1; EmptyString; p3] -> truthy p1 = true -> truthy p3 = true ->
         pages_text texts = p1 ++ nl ++ p3 ++ nl).
Proof.
  intros Hpath Hpages. split.
  - unfold load_pdf_text. rewrite Hpath. cbn [negb].
    unfold bind, try_except, print, lift. rewrite Hpages.
    unfold ret. rewrite extract_pages_texts. reflexivity.
  - intros p1 p3 -> H1 H3. unfold pages_text. cbn [filter truthy].
    rewrite H1, H3. cbn [map fold_right].
    now rewrite append_nil_r, !append_assoc.
Qed.

Lemma C5_witness :
  load_pdf_text sample_env FILE_PATH 0
  = (Ret (pages_text ["Liberty is sweet."; EmptyString; "The end."]),
     [Print ("Attempting to load text from: " ++ FILE_PATH);
      Print "✅ PDF text loaded successfully."],
     0)
  /\ pages_text ["Liberty is sweet."; EmptyString; "The end."]
     = "Liberty is sweet." ++ nl ++ "The end." ++ nl.
Proof.
  destruct (C5_load_pdf_text_joins_nonempty_pages sample_env FILE_PATH
              ["Liberty is sweet."; EmptyString; "The end."] 0 eq_refl eq_refl)
    as [Hload Hexample].
  split; [exact Hload |].
  exact (Hexample "Liberty is sweet." "The end." eq_refl eq_refl eq_refl).
Defined.

(** ** The sentiment report *)

Lemma ltb_lt (x y : Q) : ltb x y = true <-> (x < y)%Q.
Proof.
  unfold ltb. rewrite negb_true_iff. split.
  - intros H. apply Qnot_le_lt. intros Hle.
    apply Qle_bool_iff in Hle. congruence.
  - intros H. destruct (Qle_bool y x) eqn:E; [| reflexivity].
    apply Qle_bool_iff in E. exfalso. exact (Qlt_not_le _ _ H E).
Qed.

Lemma ltb_ge (x y : Q) : ltb x y = false <-> (y <= x)%Q.
Proof.
  unfold ltb. rewrite negb_false_iff. apply Qle_bool_iff.
Qed.

Lemma ltb_compat (x x' y y' : Q) : (x == x')%Q -> (y == y')%Q -> ltb x y = ltb x' y'.
Proof. intros Hx Hy. unfold ltb. f_equal. now apply Qleb_comp. Qed.

(** C6.  The interpretation printed by [analyze_quote_nlp] is a function
    of the polarity alone, with strict thresholds at the floats 0.3 and
    -0.3: above 0.3 it is the positive line, below -0.3 the negative line,
    and from -0.3 to 0.3, both included, the neutral line; the three lines
    differ, and the line closes the report whatever the quote and the
    subjectivity are. *)
Theorem C6_tone_is_a_strict_threshold_function_of_polarity :
  (forall p, (float_0_3 < p)%Q -> interpretation p = POSITIVE)
  /\ (forall p, (p < - float_0_3)%Q -> interpretation p = NEGATIVE)
  /\ (forall p, (- float_0_3 <= p)%Q -> (p <= float_0_3)%Q -> interpretation p = NEUTRAL)
  /\ interpretation float_0_3 = NEUTRAL
  /\ interpretation (- float_0_3) = NEUTRAL
  /\ interpretation (1 # 2) = POSITIVE
  /\ interpretation (- (1 # 2)) = NEGATIVE
  /\ interpretation 0 = NEUTRAL
  /\ (POSITIVE <> NEGATIVE /\ POSITIVE <> NEUTRAL /\ NEGATIVE <> NEUTRAL)
  /\ (forall p p', (p == p')%Q -> interpretation p = interpretation p')
  /\ (forall env quote i,
         exists t,
           analyze_quote_nlp env quote i
           = (Ret tt, (t ++ [Print (interpretation (fst (sentiment env quote)))])%list, i)).
Proof.
  repeat match goal with |- _ /\ _ => split end; try (vm_compute; congruence).
  - intros p H. unfold interpretation. apply ltb_lt in H. now rewrite H.
  - intros p H. unfold interpretation.
    assert (Hn : ltb float_0_3 p = false).
    { apply ltb_ge. apply Qlt_le_weak. eapply Qlt_trans; [exact H |]. reflexivity. }
    apply ltb_lt in H. now rewrite Hn, H.
  - intros p Hlo Hhi. unfold interpretation.
    apply ltb_ge in Hlo, Hhi. now rewrite Hhi, Hlo.
  - intros p p' H. unfold interpretation.
    rewrite (ltb_compat float_0_3 float_0_3 p p' (Qeq_refl _) H).
    rewrite (ltb_compat p p' (- float_0_3) (- float_0_3) H (Qeq_refl _)).
    reflexivity.
  - intros env quote i. exists (sentiment_scores (fst (sentiment env quote))
                                    (snd (sentiment env quote))).
    unfold analyze_quote_nlp. destruct (sentiment env quote) as [polarity subjectivity].
    reflexivity.
Qed.

Lemma C6_witness :
  interpretation (7 # 10) = POSITIVE
  /\ interpretation (- (7 # 10)) = NEGATIVE
  /\ interpretation (1 # 10) = NEUTRAL
  /\ interpretation (2 # 4) = interpretation (1 # 2).
Proof.
  destruct C6_tone_is_a_strict_threshold_function_of_polarity
    as (Hpos & Hneg & Hneu & _ & _ & _ & _ & _ & _ & Heq & _).
  split; [apply Hpos; reflexivity |].
  split; [apply Hneg; reflexivity |].
  split; [apply Hneu; discriminate |].
  apply Heq. reflexivity.
Defined.

(** ** The explanation requester *)

(** The [except] clauses applied to an exception of the [try] body. *)
Lemma explain_quote_with_gpt_handles env quote i (e : exn) :
  chat_completions_create env (prompt_for quote) = Raises e ->
  explain_quote_with_gpt env quote i =
  match e with
  | APIStatusError _ status_code response =>
      (Ret API_ERROR_FALLBACK,
       (EXPLAIN_HEADER
        ++ Create (prompt_for quote) :: status_line status_code response
           :: (if (status_code =? 401)%Z then AUTH_DIAGNOSTIC else []))%list,
       i)
  | APITimeoutError =>
      (Ret TIMEOUT_FALLBACK,
       (EXPLAIN_HEADER ++ [Create (prompt_for quote); TIMEOUT_LINE])%list, i)
  | _ =>
      (Ret UNEXPECTED_FALLBACK,
       (EXPLAIN_HEADER ++ [Create (prompt_for quote); unexpected_line e])%list, i)
  end.
Proof.
  intros Hcall. unfold explain_quote_with_gpt, bind, try_except, print, create.
  rewrite Hcall. destruct e as [m c r| | | | |m]; try reflexivity.
  cbn [dispatch]. unfold bind, print. destruct (c =? 401)%Z; reflexivity.
Qed.

(** The [try] body on a response. *)
Lemma explain_quote_with_gpt_answers env quote i (r : response) :
  chat_completions_create env (prompt_for quote) = Returns r ->
  explain_quote_with_gpt env quote i =
  match choices r with
  | Some text :: _ =>
      (Ret (strip text),
       (EXPLAIN_HEADER ++ [Create (prompt_for quote); RECEIVED])%list, i)
  | None :: _ =>
      (Ret UNEXPECTED_FALLBACK,
       (EXPLAIN_HEADER ++ [Create (prompt_for quote); unexpected_line AttributeError])%list, i)
  | [] =>
      (Ret UNEXPECTED_FALLBACK,
       (EXPLAIN_HEADER ++ [Create (prompt_for quote); unexpected_line IndexError])%list, i)
  end.
Proof.
  intros Hcall. unfold explain_quote_with_gpt, bind, try_except, print, create.
  rewrite Hcall. destruct (choices r) as [|[text|] rest]; reflexivity.
Qed.

Lemma fallbacks_distinct :
  API_ERROR_FALLBACK <> TIMEOUT_FALLBACK
  /\ API_ERROR_FALLBACK <> UNEXPECTED_FALLBACK
  /\ TIMEOUT_FALLBACK <> UNEXPECTED_FALLBACK.
Proof. repeat split; discriminate. Qed.

(** C3, as the code has it.  Every failure of the remote call falls in one
    of three classes, each with its own fallback string: an API status
    error, whatever its status code, returns the API-error fallback after a
    diagnostic that shows the code, followed by the authentication
    diagnostic exactly when the code is 401; a timeout returns the timeout
    fallback; any other exception returns the unexpected-error fallback.
    The three strings differ. *)
Theorem C3_failures_fall_in_three_classes env quote i (e : exn) :
  chat_completions_create env (prompt_for quote) = Raises e ->
  (forall m status_code response,
      e = APIStatusError m status_code response ->
      explain_quote_with_gpt env quote i
      = (Ret API_ERROR_FALLBACK,
         (EXPLAIN_HEADER
          ++ Create (prompt_for quote) :: status_line status_code response
             :: (if (status_code =? 401)%Z then AUTH_DIAGNOSTIC else []))%list,
         i))
  /\ (e = APITimeoutError ->
      explain_quote_with_gpt env quote i
      = (Ret TIMEOUT_FALLBACK,
         (EXPLAIN_HEADER ++ [Create (prompt_for quote); TIMEOUT_LINE])%list, i))
  /\ ((forall m status_code response, e <> APIStatusError m status_code response) ->
      e <> APITimeoutError ->
      explain_quote_with_gpt env quote i
      = (Ret UNEXPECTED_FALLBACK,
         (EXPLAIN_HEADER ++ [Create (prompt_for quote); unexpected_line e])%list, i))
  /\ API_ERROR_FALLBACK <> TIMEOUT_FALLBACK
  /\ API_ERROR_FALLBACK <> UNEXPECTED_FALLBACK
  /\ TIMEOUT_FALLBACK <> UNEXPECTED_FALLBACK.
Proof.
  intros Hcall. pose proof (explain_quote_with_gpt_handles env quote i e Hcall) as H.
  split; [| split; [| split; [| exact fallbacks_distinct]]].
  - intros m c r ->. exact H.
  - intros ->. exact H.
  - intros Hstatus Htimeout. destruct e as [m c r| | | | |m]; try exact H.
    + now destruct (Hstatus m c r).
    + now destruct Htimeout.
Qed.

Lemma C3_witness :
  explain_quote_with_gpt unauthorized_env "LIBERTY" 3
  = (Ret API_ERROR_FALLBACK,
     (EXPLAIN_HEADER
      ++ Create (prompt_for "LIBERTY")
         :: status_line 401 "<Response [401 Unauthorized]>" :: AUTH_DIAGNOSTIC)%list,
     3)
  /\ explain_quote_with_gpt server_error_env "LIBERTY" 3
     = (Ret API_ERROR_FALLBACK,
        (EXPLAIN_HEADER
         ++ [Create (prompt_for "LIBERTY");
             status_line 500 "<Response [500 Internal Server Error]>"])%list,
        3)
  /\ explain_quote_with_gpt timeout_env "LIBERTY" 3
     = (Ret TIMEOUT_FALLBACK,
        (EXPLAIN_HEADER ++ [Create (prompt_for "LIBERTY"); TIMEOUT_LINE])%list, 3).
Proof.
  split; [| split].
  - exact (proj1 (C3_failures_fall_in_three_classes
                    unauthorized_env "LIBERTY" 3 UNAUTHORIZED eq_refl)
             _ _ _ eq_refl).
  - exact (proj1 (C3_failures_fall_in_three_classes
                    server_error_env "LIBERTY" 3 SERVER_ERROR eq_refl)
             _ _ _ eq_refl).
  - exact (proj1 (proj2 (C3_failures_fall_in_three_classes
                           timeout_env "LIBERTY" 3 APITimeoutError eq_refl))
             eq_refl).
Defined.

(** C3, as the specification words it, fails on a status error that is no
    authentication failure: an internal server error (status 500) is
    unclassified in the specification's three classes, yet the function
    returns the API-error fallback for it, the string of the
    authentication class, and not the unexpected-error fallback. *)
Lemma C3_counterexample :
  chat_completions_create server_error_env (prompt_for "LIBERTY") = Raises SERVER_ERROR
  /\ spec_failure_class SERVER_ERROR = UnclassifiedFailure
  /\ fst (fst (explain_quote_with_gpt server_error_env "LIBERTY" 3))
     = Ret API_ERROR_FALLBACK
  /\ fst (fst (explain_quote_with_gpt server_error_env "LIBERTY" 3))
     <> Ret (spec_fallback (spec_failure_class SERVER_ERROR)).
Proof.
  repeat split; try reflexivity. vm_compute. discriminate.
Qed.



(** ** The whole run *)

Lemma load_pdf_text_run env file_path i :
  load_pdf_text env file_path i =
  if path_exists env file_path then
    match read_document env file_path with
    | Returns text => (Ret text, FILE_LOADED file_path, i)
    | Raises e => (Exit 1%Z, FILE_UNREADABLE file_path e, i)
    end
  else (Exit 1%Z, FILE_MISSING file_path, i).
Proof.
  unfold load_pdf_text, read_document.
  destruct (path_exists env file_path); [| reflexivity].
  cbn [negb]. unfold bind, try_except, print, lift.
  destruct (pdf_reader env file_path) as [pages|e]; [| reflexivity].
  unfold ret. destruct (extract_pages pages EmptyString); reflexivity.
Qed.

Lemma main_unfold env depth :
  main env depth =
  (pdf_text <- load_pdf_text env FILE_PATH;;
   user_quote <- get_user_quote env depth;;
   check_match user_quote pdf_text;;
   main_tail env user_quote).
Proof. reflexivity. Qed.

Lemma analyze_quote_nlp_run env quote i :
  analyze_quote_nlp env quote i =
  (Ret tt,
   (sentiment_scores (fst (sentiment env quote)) (snd (sentiment env quote))
    ++ [Print (interpretation (fst (sentiment env quote)))])%list,
   i).
Proof.
  unfold analyze_quote_nlp. destruct (sentiment env quote) as [p s]. reflexivity.
Qed.

Lemma explain_quote_with_gpt_total env quote i :
  exists s t,
    explain_quote_with_gpt env quote i
    = (Ret s, (EXPLAIN_HEADER ++ Create (prompt_for quote) :: t)%list, i).
Proof.
  destruct (chat_completions_create env (prompt_for quote)) as [r|e] eqn:Hcall.
  - rewrite (explain_quote_with_gpt_answers env quote i r Hcall).
    destruct (choices r) as [|[text|] rest]; eauto.
  - rewrite (explain_quote_with_gpt_handles env quote i e Hcall).
    destruct e; eauto.
Qed.

Lemma bind_returns {A B} (m : M A) (f : A -> M B) i a t j :
  m i = (Ret a, t, j) ->
  bind m f i = (let '(r, t', k) := f a j in (r, (t ++ t')%list, k)).
Proof. intros H. unfold bind. now rewrite H. Qed.

Lemma main_tail_run env quote i :
  exists t,
    main_tail env quote i = (Ret tt, (t ++ CITATION)%list, i)
    /\ In (Create (prompt_for quote)) t.
Proof.
  destruct (explain_quote_with_gpt_total env quote i) as (s & t & He).
  exists (EXPLAIN_HEADER ++ Create (prompt_for quote) :: t
          ++ [Print (nl ++ "--- OpenAI Explanation Result ---"); Print s]
          ++ sentiment_scores (fst (sentiment env quote)) (snd (sentiment env quote))
          ++ [Print (interpretation (fst (sentiment env quote)))])%list.
  split.
  - unfold main_tail. rewrite (bind_returns _ _ _ _ _ _ He).
    unfold bind, print. rewrite analyze_quote_nlp_run.
    unfold CITATION. f_equal. f_equal.
    rewrite <- !app_assoc. cbn [app]. rewrite <- !app_assoc. reflexivity.
  - apply in_or_app. right. now left.
Qed.

Lemma check_match_run user_quote pdf_text i :
  check_match user_quote pdf_text i
  = (Ret tt, match_log (quote_in_pdf user_quote pdf_text), i).
Proof.
  unfold check_match, match_log. now destruct (quote_in_pdf user_quote pdf_text).
Qed.

Lemma main_completes env text n line depth i :
  path_exists env FILE_PATH = true ->
  read_document env FILE_PATH = Returns text ->
  first_nonblank env i n line ->
  n <= depth ->
  exists asked rest,
    main env depth i
    = (Ret tt,
       (FILE_LOADED FILE_PATH ++ asked
        ++ match_log (quote_in_pdf (strip line) text) ++ rest ++ CITATION)%list,
       i + n + 1)
    /\ get_user_quote env depth i = (Ret (strip line), asked, i + n + 1)
    /\ main_tail env (strip line) (i + n + 1) = (Ret tt, (rest ++ CITATION)%list, i + n + 1)
    /\ In (Create (prompt_for (strip line))) rest.
Proof.
  intros Hpath Hread Hfirst Hdepth.
  destruct (get_user_quote_enough env n i line depth Hfirst Hdepth)
    as (asked & Hask & _ & _).
  destruct (main_tail_run env (strip line) (i + n + 1)) as (rest & Htail & Hin).
  exists asked, rest. repeat split; try assumption.
  rewrite main_unfold.
  assert (Hload : load_pdf_text env FILE_PATH i = (Ret text, FILE_LOADED FILE_PATH, i)).
  { rewrite load_pdf_text_run, Hpath, Hread. reflexivity. }
  rewrite (bind_returns _ _ _ _ _ _ Hload).
  rewrite (bind_returns _ _ _ _ _ _ Hask).
  rewrite (bind_returns _ _ _ _ _ _ (check_match_run _ _ _)).
  rewrite Htail. reflexivity.
Qed.


Lemma script_with_key env depth :
  api_key_missing env = false -> script env depth = main env depth.
Proof. intros H. unfold script. now rewrite H. Qed.

Lemma get_user_quote_agree e1 e2 depth :
  (forall k, console e1 k = console e2 k) ->
  forall i, get_user_quote e1 depth i = get_user_quote e2 depth i.
Proof.
  intros Hc. induction depth as [|d IH]; intros i.
  - now rewrite (get_user_quote_eq e1 0 i), (get_user_quote_eq e2 0 i), Hc.
  - now rewrite (get_user_quote_eq e1 (S d) i), (get_user_quote_eq e2 (S d) i), Hc, IH.
Qed.

Lemma explain_quote_with_gpt_agree e1 e2 quote i :
  (forall req, chat_completions_create e1 req = chat_completions_create e2 req) ->
  explain_quote_with_gpt e1 quote i = explain_quote_with_gpt e2 quote i.
Proof.
  intros Hc. destruct (chat_completions_create e1 (prompt_for quote)) as [r|e] eqn:H1.
  - rewrite (explain_quote_with_gpt_answers e1 quote i r H1).
    rewrite Hc in H1. now rewrite (explain_quote_with_gpt_answers e2 quote i r H1).
  - rewrite (explain_quote_with_gpt_handles e1 quote i e H1).
    rewrite Hc in H1. now rewrite (explain_quote_with_gpt_handles e2 quote i e H1).
Qed.

Lemma main_tail_agree e1 e2 quote i :
  (forall req, chat_completions_create e1 req = chat_completions_create e2 req) ->
  (forall text, sentiment e1 text = sentiment e2 text) ->
  main_tail e1 quote i = main_tail e2 quote i.
Proof.
  intros Hc Hs. unfold main_tail, bind.
  rewrite (explain_quote_with_gpt_agree e1 e2 quote i Hc).
  destruct (explain_quote_with_gpt e2 quote i) as [[[s| | |] t] j]; try reflexivity.
  unfold print. now rewrite !analyze_quote_nlp_run, Hs.
Qed.




(** C8.  Take two runs with the same credential, console input, remote
    service and sentiment analyser, whose documents load to any two texts.
    Both run to completion with the same exit and their outputs are the
    same before the log of the match check and the same after it: the
    request sent to the service, the explanation printed, the sentiment
    report and the citation are identical, whatever the two match checks
    answer; the outputs differ at most by the found or not-found message. *)
Theorem C8_match_result_does_not_alter_downstream e1 e2 text1 text2 n line :
  same_but_document e1 e2 ->
  api_key_missing e1 = false ->
  path_exists e1 FILE_PATH = true ->
  read_document e1 FILE_PATH = Returns text1 ->
  path_exists e2 FILE_PATH = true ->
  read_document e2 FILE_PATH = Returns text2 ->
  first_nonblank e1 0 n line ->
  forall depth,
    n <= depth ->
    exists before after,
      run e1 depth
      = (Ret tt,
         (before ++ match_log (quote_in_pdf (strip line) text1) ++ after)%list,
         n + 1)
      /\ run e2 depth
         = (Ret tt,
            (before ++ match_log (quote_in_pdf (strip line) text2) ++ after)%list,
            n + 1)
      /\ In (Create (prompt_for (strip line))) after
      /\ (exists t, after = (t ++ CITATION)%list).
Proof.
  intros (Hkey & Hconsole & Hchat & Hsent) Hkey1 Hpath1 Hread1 Hpath2 Hread2
         Hfirst depth Hdepth.
  assert (Hkey2 : api_key_missing e2 = false).
  { unfold api_key_missing in *. now rewrite <- Hkey. }
  assert (Hfirst2 : first_nonblank e2 0 n line).
  { destruct Hfirst as (Hb & Hl & Ht). repeat split.
    - intros k Hk. unfold blank_line. rewrite <- Hconsole. now apply Hb.
    - now rewrite <- Hconsole.
    - exact Ht. }
  destruct (main_completes e1 text1 n line depth 0 Hpath1 Hread1 Hfirst Hdepth)
    as (asked1 & rest1 & Hrun1 & Hask1 & Htail1 & Hin1).
  destruct (main_completes e2 text2 n line depth 0 Hpath2 Hread2 Hfirst2 Hdepth)
    as (asked2 & rest2 & Hrun2 & Hask2 & Htail2 & _).
  rewrite (get_user_quote_agree e1 e2 depth Hconsole) in Hask1.
  rewrite Hask1 in Hask2. injection Hask2 as <-.
  rewrite (main_tail_agree e1 e2 _ _ Hchat Hsent) in Htail1.
  rewrite Htail1 in Htail2. injection Htail2 as Hrest.
  apply app_inv_tail in Hrest. subst rest2.
  exists (FILE_LOADED FILE_PATH ++ asked1)%list, (rest1 ++ CITATION)%list.
  unfold run. rewrite (script_with_key e1 depth Hkey1), (script_with_key e2 depth Hkey2).
  rewrite Hrun1, Hrun2, <- !app_assoc.
  repeat split; eauto. apply in_or_app. now left.
Qed.

Lemma sample_same_but_document : same_but_document sample_env other_document_env.
Proof. repeat split. Qed.

Lemma C8_witness :
  exists before after,
    run sample_env 2 = (Ret tt, (before ++ FOUND ++ after)%list, 2 + 1)
    /\ run other_document_env 2 = (Ret tt, (before ++ NOT_FOUND ++ after)%list, 2 + 1)
    /\ In (Create (prompt_for "LIBERTY")) after
    /\ (exists t, after = (t ++ CITATION)%list).
Proof.
  exact (C8_match_result_does_not_alter_downstream
           sample_env other_document_env _ _ 2 "  LIBERTY  "
           sample_same_but_document eq_refl eq_refl eq_refl eq_refl eq_refl
           sample_env_first_nonblank 2 (le_n 2)).
Defined.

(** * Further properties of the script *)

(** ** More on strings *)

Section MoreStringFacts.



Lemma lower_app (a b : string) : lower (a ++ b) = lower a ++ lower b.
Proof. induction a as [|c a IH]; simpl; [reflexivity | now rewrite IH]. Qed.

Lemma lower_empty (s : string) : lower s = EmptyString -> s = EmptyString.
Proof. destruct s; [reflexivity | discriminate]. Qed.

Lemma all_space_app (a b : string) :
  all_space (a ++ b) = all_space a && all_space b.
Proof.
  induction a as [|c a IH]; simpl; [reflexivity |].
  now rewrite IH, andb_assoc.
Qed.

Lemma lstrip_all_space (s : string) : all_space s = true -> lstrip s = EmptyString.
Proof.
  induction s as [|c s IH]; simpl; [reflexivity |].
  intros H. apply andb_true_iff in H. destruct H as [-> H]. now apply IH.
Qed.

Lemma strip_empty_iff (s : string) :
  strip s = EmptyString <-> all_space s = true.
Proof.
  split.
  - intros H. destruct (strip_split s) as (a & b & Hs & Ha & Hb).
    rewrite H in Hs. simpl in Hs. rewrite Hs, all_space_app, Ha, Hb. reflexivity.
  - intros H. unfold strip. now rewrite (lstrip_all_space s H).
Qed.





End MoreStringFacts.

(** ** More on the quote collector *)

Lemma get_user_quote_asks env n :
  forall i line depth,
    first_nonblank env i n line -> n <= depth ->
    get_user_quote env depth i = (Ret (strip line), asking n, i + n + 1).
Proof.
  induction n as [|n IH]; intros i line depth Hf Hle.
  - destruct Hf as (_ & Hc & Ht). rewrite Nat.add_0_r in Hc.
    rewrite get_user_quote_eq, Hc, Ht. cbn [asking]. f_equal. lia.
  - apply first_nonblank_unshift in Hf. destruct Hf as [Hb Hf].
    destruct (blank_line_inv _ _ Hb) as (l & Hc & Ht).
    destruct depth as [|d]; [lia |].
    rewrite get_user_quote_eq, Hc, Ht, (IH (S i) line d Hf ltac:(lia)).
    cbn [asking]. f_equal. lia.
Qed.










Lemma load_returns env text i :
  path_exists env FILE_PATH = true ->
  read_document env FILE_PATH = Returns text ->
  load_pdf_text env FILE_PATH i = (Ret text, FILE_LOADED FILE_PATH, i).
Proof. intros Hpath Hread. now rewrite load_pdf_text_run, Hpath, Hread. Qed.



(** ** More on the whole run *)

Lemma explain_quote_with_gpt_trace env quote i :
  exists s diag,
    explain_quote_with_gpt env quote i
    = (Ret s, (EXPLAIN_HEADER ++ Create (prompt_for quote) :: diag)%list, i)
    /\ count_create diag = 0.
Proof.
  destruct (chat_completions_create env (prompt_for quote)) as [r|e] eqn:Hcall.
  - rewrite (explain_quote_with_gpt_answers env quote i r Hcall).
    destruct (choices r) as [|[text|] rest]; do 2 eexists; split; reflexivity.
  - rewrite (explain_quote_with_gpt_handles env quote i e Hcall).
    destruct e as [m c resp| | | | |m]; do 2 eexists; split; try reflexivity.
    now destruct (c =? 401)%Z.
Qed.

Lemma main_tail_explicit env quote i s t :
  explain_quote_with_gpt env quote i = (Ret s, t, i) ->
  main_tail env quote i
  = (Ret tt,
     (t ++ [Print RESULT_HEADER; Print s]
      ++ sentiment_scores (fst (sentiment env quote)) (snd (sentiment env quote))
      ++ [Print (interpretation (fst (sentiment env quote)))] ++ CITATION)%list,
     i).
Proof.
  intros He. unfold main_tail. rewrite (bind_returns _ _ _ _ _ _ He).
  unfold bind, print. rewrite analyze_quote_nlp_run.
  reflexivity.
Qed.




(** X5.  The output of a complete run is the output of its stages in the
    order of the pipeline: the two lines of the load, the prompts and
    warnings of the quote collector, the log of the match check, the trace
    of [explain_quote_with_gpt] with its single request, the result header
    followed by the very string that [explain_quote_with_gpt] returned, the
    sentiment report with its interpretation, the citation. *)
Theorem X5_complete_run_prints_the_stages_in_order env text n line depth :
  api_key_missing env = false ->
  path_exists env FILE_PATH = true ->
  read_document env FILE_PATH = Returns text ->
  first_nonblank env 0 n line ->
  n <= depth ->
  exists s diag,
    explain_quote_with_gpt env (strip line) (n + 1)
    = (Ret s, (EXPLAIN_HEADER ++ Create (prompt_for (strip line)) :: diag)%list, n + 1)
    /\ count_create diag = 0
    /\ run env depth
       = (Ret tt,
          (FILE_LOADED FILE_PATH
           ++ asking n
           ++ match_log (quote_in_pdf (strip line) text)
           ++ (EXPLAIN_HEADER ++ Create (prompt_for (strip line)) :: diag)
           ++ [Print RESULT_HEADER; Print s]
           ++ sentiment_scores (fst (sentiment env (strip line)))
                               (snd (sentiment env (strip line)))
           ++ [Print (interpretation (fst (sentiment env (strip line))))]
           ++ CITATION)%list,
          n + 1).
Proof.
  intros Hkey Hpath Hread Hfirst Hdepth.
  destruct (explain_quote_with_gpt_trace env (strip line) (n + 1))
    as (s & diag & He & Hdiag).
  exists s, diag. split; [exact He |]. split; [exact Hdiag |].
  pose proof (get_user_quote_asks env n 0 line depth Hfirst Hdepth) as Hask.
  cbn [Nat.add] in Hask.
  unfold run. rewrite (script_with_key env depth Hkey), main_unfold.
  rewrite (bind_returns _ _ _ _ _ _ (load_returns env text 0 Hpath Hread)).
  rewrite (bind_returns _ _ _ _ _ _ Hask).
  rewrite (bind_returns _ _ _ _ _ _ (check_match_run _ _ _)).
  rewrite (main_tail_explicit env (strip line) (n + 1) s _ He).
  reflexivity.
Qed.

Lemma X5_witness :
  exists s diag,
    explain_quote_with_gpt sample_env (strip "  LIBERTY  ") (2 + 1)
    = (Ret s, (EXPLAIN_HEADER ++ Create (prompt_for (strip "  LIBERTY  ")) :: diag)%list, 2 + 1)
    /\ count_create diag = 0
    /\ run sample_env 2
       = (Ret tt,
          (FILE_LOADED FILE_PATH
           ++ asking 2
           ++ match_log (quote_in_pdf (strip "  LIBERTY  ")
                           ("Liberty is sweet." ++ nl ++ "The end." ++ nl))
           ++ (EXPLAIN_HEADER ++ Create (prompt_for (strip "  LIBERTY  ")) :: diag)
           ++ [Print RESULT_HEADER; Print s]
           ++ sentiment_scores (fst (sentiment sample_env (strip "  LIBERTY  ")))
                               (snd (sentiment sample_env (strip "  LIBERTY  ")))
           ++ [Print (interpretation (fst (sentiment sample_env (strip "  LIBERTY  "))))]
           ++ CITATION)%list,
          2 + 1).
Proof.
  exact (X5_complete_run_prints_the_stages_in_order sample_env
           ("Liberty is sweet." ++ nl ++ "The end." ++ nl) 2 "  LIBERTY  " 2
           eq_refl eq_refl eq_refl sample_env_first_nonblank (le_n 2)).
Defined.

(** ** More on the document loader *)

Lemma extract_pages_first_failure (texts : list string) (e : exn)
      (rest : list (attempt string)) :
  forall text,
    extract_pages (map Returns texts ++ Raises e :: rest)%list text = Raises e.
Proof.
  induction texts as [|page_text texts IH]; intros text; [reflexivity |].
  cbn [map app extract_pages]. apply IH.
Qed.

(** X6.  A document that cannot be read ends the process, and nothing of
    it is kept: when the reader raises, or when the extraction of a page
    raises after any number of pages that were extracted and before any
    number of further pages, [load_pdf_text] announces the load, reports that
    first exception and exits with status 1 without returning a text. *)
Theorem X6_first_unreadable_page_aborts_the_load env file_path e i :
  path_exists env file_path = true ->
  (pdf_reader env file_path = Raises e
   \/ exists texts rest,
       pdf_reader env file_path
       = Returns (map Returns texts ++ Raises e :: rest)%list) ->
  load_pdf_text env file_path i = (Exit 1%Z, FILE_UNREADABLE file_path e, i).
Proof.
  intros Hpath Hfail. rewrite load_pdf_text_run, Hpath. unfold read_document.
  destruct Hfail as [-> | (texts & rest & ->)]; [reflexivity |].
  now rewrite extract_pages_first_failure.
Qed.

Lemma X6_witness :
  load_pdf_text corrupt_file_env FILE_PATH 0
  = (Exit 1%Z, FILE_UNREADABLE FILE_PATH CORRUPT, 0).
Proof.
  apply X6_first_unreadable_page_aborts_the_load; [reflexivity |].
  right. exists ["Liberty is sweet."], []. reflexivity.
Defined.

Lemma pages_text_empty (texts : list string) :
  (forall p, In p texts -> p = EmptyString) -> pages_text texts = EmptyString.
Proof.
  induction texts as [|p texts IH]; intros Hall; [reflexivity |].
  unfold pages_text. cbn [filter]. rewrite (Hall p (or_introl eq_refl)).
  cbn [truthy]. apply IH. intros q Hq. apply Hall. now right.
Qed.

Lemma contains_in_empty (sub : string) :
  sub <> EmptyString -> contains sub EmptyString = false.
Proof. destruct sub; [congruence | reflexivity]. Qed.

(** X7.  A document none of whose pages yields text (a scanned book) loads
    without error to the empty text, and the match check then reports every
    quote that is not empty, so every quote that [get_user_quote] can
    return, as not found. *)
Theorem X7_document_without_text_matches_no_quote env file_path texts i :
  path_exists env file_path = true ->
  pdf_reader env file_path = Returns (map Returns texts) ->
  (forall p, In p texts -> p = EmptyString) ->
  load_pdf_text env file_path i = (Ret EmptyString, FILE_LOADED file_path, i)
  /\ (forall quote j,
         quote <> EmptyString ->
         check_match quote EmptyString j = (Ret tt, NOT_FOUND, j)).
Proof.
  intros Hpath Hpages Hempty. split.
  - rewrite load_pdf_text_run, Hpath. unfold read_document. rewrite Hpages.
    now rewrite extract_pages_texts, (pages_text_empty texts Hempty).
  - intros quote j Hq. unfold check_match, quote_in_pdf.
    rewrite contains_in_empty; [reflexivity |].
    intros H. apply Hq. now apply lower_empty.
Qed.

Lemma X7_witness :
  load_pdf_text empty_document_env FILE_PATH 0
  = (Ret EmptyString, FILE_LOADED FILE_PATH, 0)
  /\ (forall quote j,
         quote <> EmptyString ->
         check_match quote EmptyString j = (Ret tt, NOT_FOUND, j)).
Proof.
  apply (X7_document_without_text_matches_no_quote empty_document_env FILE_PATH
           [EmptyString; EmptyString] 0); try reflexivity.
  intros p [<- | [<- | []]]; reflexivity.
Defined.

(** ** More on the match check *)

Lemma substring_of_context (sub s pre post : string) :
  substring_of sub s -> substring_of sub (pre ++ s ++ post).
Proof.
  intros (a & b & ->). exists (pre ++ a), (b ++ post).
  now rewrite !append_assoc.
Qed.

Lemma pages_text_app (l1 l2 : list string) :
  pages_text (l1 ++ l2) = pages_text l1 ++ pages_text l2.
Proof.
  unfold pages_text. induction l1 as [|p l1 IH]; [reflexivity |].
  cbn [app filter]. destruct (truthy p); [| exact IH].
  cbn [map fold_right]. now rewrite IH, !append_assoc.
Qed.

Lemma quote_in_pdf_context (Q D pre post : string) :
  quote_in_pdf Q D = true -> quote_in_pdf Q (pre ++ D ++ post) = true.
Proof.
  unfold quote_in_pdf. intros H. apply contains_spec. rewrite !lower_app.
  apply substring_of_context. now apply contains_spec.
Qed.



(** X9.  Loading and matching compose page by page: a quote that the match
    check finds in the text of one page is found in the text that
    [load_pdf_text] builds from all the pages. *)
Theorem X9_quote_of_a_page_is_found_in_the_document env file_path texts page quote i :
  path_exists env file_path = true ->
  pdf_reader env file_path = Returns (map Returns texts) ->
  In page texts ->
  quote_in_pdf quote page = true ->
  exists pdf_text,
    load_pdf_text env file_path i = (Ret pdf_text, FILE_LOADED file_path, i)
    /\ check_match quote pdf_text i = (Ret tt, FOUND, i).
Proof.
  intros Hpath Hpages Hin Hfound. exists (pages_text texts). split.
  - rewrite load_pdf_text_run, Hpath. unfold read_document. rewrite Hpages.
    now rewrite extract_pages_texts.
  - unfold check_match. replace (quote_in_pdf quote (pages_text texts)) with true;
      [reflexivity |]. symmetry.
    destruct (in_split _ _ Hin) as (l1 & l2 & ->).
    change (page :: l2) with ([page] ++ l2)%list. rewrite !pages_text_app.
    destruct page as [|c page].
    + unfold quote_in_pdf in *. simpl in Hfound.
      rewrite orb_false_r in Hfound. apply startswith_spec in Hfound.
      destruct Hfound as [post Hpost].
      destruct (lower quote); [| discriminate].
      apply contains_spec. now exists EmptyString, (lower (pages_text l1 ++ pages_text [EmptyString] ++ pages_text l2)).
    + unfold pages_text at 2. cbn [filter truthy map fold_right].
      rewrite append_nil_r, append_assoc.
      now apply quote_in_pdf_context.
Qed.

Lemma X9_witness :
  exists pdf_text,
    load_pdf_text sample_env FILE_PATH 0 = (Ret pdf_text, FILE_LOADED FILE_PATH, 0)
    /\ check_match "the END" pdf_text 0 = (Ret tt, FOUND, 0).
Proof.
  apply (X9_quote_of_a_page_is_found_in_the_document sample_env FILE_PATH
           ["Liberty is sweet."; EmptyString; "The end."] "The end.");
    try reflexivity.
  right; right; left. reflexivity.
Defined.

(** ** More on the explanation requester *)

Lemma append_length (a b : string) :
  String.length (a ++ b) = String.length a + String.length b.
Proof. induction a as [|c a IH]; simpl; [reflexivity | now rewrite IH]. Qed.

Lemma append_inj_l (a x y : string) : a ++ x = a ++ y -> x = y.
Proof.
  induction a as [|c a IH]; simpl; [trivial |].
  intros H. injection H as H. now apply IH.
Qed.

Lemma append_inj_r (x y b : string) : x ++ b = y ++ b -> x = y.
Proof.
  revert y. induction x as [|c x IH]; intros [|d y] H.
  - reflexivity.
  - apply (f_equal String.length) in H. simpl in H. rewrite append_length in H. lia.
  - apply (f_equal String.length) in H. simpl in H. rewrite append_length in H. lia.
  - simpl in H. injection H as -> H. f_equal. now apply IH.
Qed.

(** X10.  The request identifies the quote: two quotes that differ give
    requests that differ, the quote being embedded as it is between two
    double quotes at the end of the user message. *)
Theorem X10_request_determines_the_quote (q1 q2 : string) :
  prompt_for q1 = prompt_for q2 <-> q1 = q2.
Proof.
  split; [| now intros ->].
  unfold prompt_for. intros H. injection H as H.
  exact (append_inj_r _ _ _ H).
Qed.

Lemma X10_witness :
  "LIBERTY" = "LIBERTY" /\ prompt_for "LIBERTY" <> prompt_for "liberty".
Proof.
  split.
  - exact (proj1 (X10_request_determines_the_quote "LIBERTY" "LIBERTY") eq_refl).
  - intros H. apply X10_request_determines_the_quote in H. discriminate H.
Defined.

(** X11.  An answer whose content is empty or made of whitespace is a
    success all the same: [explain_quote_with_gpt] logs the success line and
    returns the empty string, not a fallback. *)
Theorem X11_blank_answer_gives_the_empty_explanation env quote i r text rest :
  chat_completions_create env (prompt_for quote) = Returns r ->
  choices r = Some text :: rest ->
  all_space text = true ->
  explain_quote_with_gpt env quote i
  = (Ret EmptyString, (EXPLAIN_HEADER ++ [Create (prompt_for quote); RECEIVED])%list, i).
Proof.
  intros Hcall Hchoices Hblank.
  rewrite (explain_quote_with_gpt_answers env quote i r Hcall), Hchoices.
  now rewrite (proj2 (strip_empty_iff text) Hblank).
Qed.

Lemma X11_witness :
  explain_quote_with_gpt blank_answer_env "LIBERTY" 3
  = (Ret EmptyString,
     (EXPLAIN_HEADER ++ [Create (prompt_for "LIBERTY"); RECEIVED])%list, 3).
Proof.
  exact (X11_blank_answer_gives_the_empty_explanation blank_answer_env "LIBERTY" 3
           {| choices := [Some "  "; Some "unused"] |} "  " [Some "unused"]
           eq_refl eq_refl eq_refl).
Defined.

(** ** More on the sentiment report *)

Lemma interpretation_positive (p : Q) :
  interpretation p = POSITIVE <-> (float_0_3 < p)%Q.
Proof.
  rewrite <- ltb_lt. unfold interpretation.
  destruct (ltb float_0_3 p); [tauto |].
  destruct (ltb p (- float_0_3)); split; discriminate.
Qed.

Lemma interpretation_negative (p : Q) :
  interpretation p = NEGATIVE <-> (p < - float_0_3)%Q.
Proof.
  rewrite <- ltb_lt. unfold interpretation.
  destruct (ltb float_0_3 p) eqn:Hhi.
  - split; [discriminate |]. intros Hlo.
    apply ltb_lt in Hhi, Hlo. exfalso.
    apply (Qlt_irrefl p). eapply Qlt_trans; [exact Hlo |].
    eapply Qlt_trans; [| exact Hhi]. reflexivity.
  - destruct (ltb p (- float_0_3)); [tauto | split; discriminate].
Qed.

(** X12.  The thresholds are symmetric: a polarity reads as positive
    exactly when its opposite reads as negative, and as negative exactly
    when its opposite reads as positive, so a polarity and its opposite are
    neutral together. *)
Theorem X12_opposite_polarities_have_mirrored_tones (p : Q) :
  (interpretation p = POSITIVE <-> interpretation (- p)%Q = NEGATIVE)
  /\ (interpretation p = NEGATIVE <-> interpretation (- p)%Q = POSITIVE)
  /\ (interpretation p = NEUTRAL <-> interpretation (- p)%Q = NEUTRAL).
Proof.
  assert (Hpos : interpretation p = POSITIVE <-> interpretation (- p)%Q = NEGATIVE).
  { rewrite interpretation_positive, interpretation_negative. split; intros H.
    - now apply Qopp_lt_compat.
    - apply Qopp_lt_compat in H. now rewrite !Qopp_involutive in H. }
  assert (Hneg : interpretation p = NEGATIVE <-> interpretation (- p)%Q = POSITIVE).
  { rewrite interpretation_positive, interpretation_negative. split; intros H.
    - apply Qopp_lt_compat in H. now rewrite Qopp_involutive in H.
    - apply Qopp_lt_compat in H. now rewrite Qopp_involutive in H. }
  split; [exact Hpos |]. split; [exact Hneg |].
  assert (Htri : forall x, interpretation x = POSITIVE \/ interpretation x = NEGATIVE
                           \/ interpretation x = NEUTRAL).
  { intros x. unfold interpretation.
    destruct (ltb float_0_3 x); [tauto |]. destruct (ltb x (- float_0_3)); tauto. }
  split; intros H.
  - destruct (Htri (- p)%Q) as [Hp | [Hn | Hz]]; [| | exact Hz].
    + apply Hneg in Hp. rewrite Hp in H. discriminate.
    + apply Hpos in Hn. rewrite Hn in H. discriminate.
  - destruct (Htri p) as [Hp | [Hn | Hz]]; [| | exact Hz].
    + apply Hpos in Hp. rewrite Hp in H. discriminate.
    + apply Hneg in Hn. rewrite Hn in H. discriminate.
Qed.
